(** * EcoCompute Governance Backend (standalone): model and properties

    A shallow embedding of [backend/main.py] and [backend/schemas.py].

    Python [str] values are [string]; Python [int] is [Z]; a request header
    or body field that may be missing is an [option]; dict literals are
    association lists in source order.  The SQLAlchemy session is a staged
    list of rows over two committed tables, and the handlers run in a small
    state-and-exception monad over the session. *)

From Stdlib Require Import String Ascii List ZArith Bool Lia.
Import ListNotations.
Open Scope string_scope.

(** ** Python string primitives *)

Module PyStr.

(** [s.startswith(p)] *)
Fixpoint startswith (p s : string) : bool :=
  match p, s with
  | EmptyString, _ => true
  | String _ _, EmptyString => false
  | String a p', String b s' => Ascii.eqb a b && startswith p' s'
  end.

(** [sub in s] on two strings: [sub] occurs at some offset of [s]. *)
Fixpoint contains (sub s : string) : bool :=
  startswith sub s ||
  match s with
  | EmptyString => false
  | String _ s' => contains sub s'
  end.

(** What "contains the substring" means: some text before, the needle,
    some text after. *)
Definition Substring (sub s : string) : Prop :=
  exists pre post, s = pre ++ sub ++ post.

Definition is_upper (c : ascii) : bool :=
  (65 <=? nat_of_ascii c)%nat && (nat_of_ascii c <=? 90)%nat.

Definition lower_char (c : ascii) : ascii :=
  if is_upper c then ascii_of_nat (nat_of_ascii c + 32) else c.

(** [s.lower()] on a byte string: the letters A-Z are mapped to a-z and
  every other byte is kept.  (On text outside ASCII Python lowers other
  cased letters too; none of them turns into a letter of "critical"
  standing next to its neighbours, so the search below is not
  affected.) *)
Fixpoint lower (s : string) : string :=
  match s with
  | EmptyString => EmptyString
  | String c s' => String (lower_char c) (lower s')
  end.

End PyStr.

(** ** JSON values

    The [details] column of an audit row and the [data] of a response hold
    schema-less JSON; a dict keeps its keys in insertion order. *)

#[local] Set Warnings "-register-all".

Inductive json : Type :=
| JNull
| JBool (b : bool)
| JInt (z : Z)
| JStr (s : string)
| JObj (fields : list (string * json)).

Definition dict : Type := list (string * json).

(** ** Database models (main.py, section 2) *)

Module AuditLog.
(** [id] and [timestamp] are [None] on a freshly built object; the store
    fills them in when the row is inserted. *)
Record t : Type := mk {
  id : option Z;
  timestamp : option Z;
  action : string;
  user_id : string;
  details : dict
}.
End AuditLog.

Module PolicyModel.
Record t : Type := mk {
  id : option Z;
  name : string;
  criticality : string;
  type : string;
  region : string
}.
End PolicyModel.

(** ** Request bodies as they arrive

    A decoded JSON body: each field is missing or carries a value of the
    declared type. *)

Record RawModelCreate : Type := {
  raw_name : option string;
  raw_region_id : option string;
  raw_type : option string;
  raw_criticality : option string;
  raw_efficiency_score : option Z
}.

Record RawPolicyCheckRequest : Type := {
  raw_action : option string;
  raw_model_id : option string;
  raw_context : option json
}.

(** ** Pydantic schemas of schemas.py *)

Module schemas.

Module ModelCreate.
Record t : Type := mk {
    name : string;
    region_id : string;
    type : string;
    criticality : string;
    efficiency_score : Z
  }.
End ModelCreate.

(** [pattern="^(Low|Medium|High)$"] *)
Definition criticality_pattern (s : string) : bool :=
  (s =? "Low") || (s =? "Medium") || (s =? "High").

(** [ge=0, le=100] *)
Definition efficiency_score_range (n : Z) : bool :=
  ((0 <=? n) && (n <=? 100))%Z.

(** Validation of a body against [ModelCreate]: [None] is a rejected
    body. *)
Definition ModelCreate_validate (b : RawModelCreate)
  : option ModelCreate.t :=
  match raw_name b, raw_region_id b, raw_type b, raw_criticality b with
  | Some n, Some r, Some t, Some c =>
      let e := match raw_efficiency_score b with
               | Some e => e
               | None => 0%Z
               end in
      if criticality_pattern c && efficiency_score_range e
      then Some (ModelCreate.mk n r t c e)
      else None
  | _, _, _, _ => None
  end.

End schemas.

(** ** Pydantic schemas of main.py (section 3)

    main.py declares its own classes and does not import schemas.py; the
    handlers below are typed with these. *)

Module ModelCreate.
Record t : Type := mk {
  name : string;
  region_id : string;
  type : string;
  criticality : string;
  efficiency_score : Z
}.

(** [model.model_dump()] *)
Definition model_dump (m : t) : dict :=
  [ ("name", JStr (name m));
    ("region_id", JStr (region_id m));
    ("type", JStr (type m));
    ("criticality", JStr (criticality m));
    ("efficiency_score", JInt (efficiency_score m)) ].
End ModelCreate.

Module PolicyCheckRequest.
Record t : Type := mk {
  action : string;
  model_id : string
}.
End PolicyCheckRequest.

Module PolicyCheckResponse.
Record t : Type := mk {
  allowed : bool;
  reason : string
}.
End PolicyCheckResponse.

Module APIResponse.
Record t : Type := mk {
  success : bool;
  data : option dict;
  error : option string
}.
End APIResponse.

(** Four required [str] fields, [efficiency_score: int = 0], nothing
    else. *)
Definition ModelCreate_validate (b : RawModelCreate) : option ModelCreate.t :=
  match raw_name b, raw_region_id b, raw_type b, raw_criticality b with
  | Some n, Some r, Some t, Some c =>
      Some (ModelCreate.mk n r t c
              match raw_efficiency_score b with
              | Some e => e
              | None => 0%Z
              end)
  | _, _, _, _ => None
  end.

(** Two required [str] fields; a [context] key in the body is not a field
    of this class and is dropped. *)
Definition PolicyCheckRequest_validate (b : RawPolicyCheckRequest)
  : option PolicyCheckRequest.t :=
  match raw_action b, raw_model_id b with
  | Some a, Some m => Some (PolicyCheckRequest.mk a m)
  | _, _ => None
  end.

(** ** The store (main.py, section 1)

    The committed content of the two tables, in insertion order. *)

Record Database : Type := {
  audit_logs : list AuditLog.t;
  registered_models : list PolicyModel.t
}.

(** An object handed to [db.add]. *)
Inductive row : Type :=
| AuditRow (r : AuditLog.t)
| ModelRow (r : PolicyModel.t).

(** A unit of work: the tables it is bound to and the rows staged by
    [db.add] and not yet flushed ([autoflush=False]). *)
Record Session : Type := {
  tables : Database;
  new : list row
}.

(** What a request cannot control: whether the write at commit time fails
    (and with which error text), and the clock read by the [timestamp]
    column default. *)
Record Env : Type := {
  commit_error : option string;
  utcnow : Z
}.

(** Integer primary key: one more than the largest key in the table. *)
Definition next_id (ids : list (option Z)) : Z :=
  (1 + fold_right (fun i m => match i with
                              | Some z => Z.max z m
                              | None => m
                              end) 0 ids)%Z.

Definition or_default {A : Type} (o : option A) (d : A) : option A :=
  match o with
  | Some a => Some a
  | None => Some d
  end.

Definition insert_audit_log (now : Z) (tbl : list AuditLog.t)
  (r : AuditLog.t) : list AuditLog.t :=
  tbl ++ [AuditLog.mk
            (or_default (AuditLog.id r) (next_id (map AuditLog.id tbl)))
            (or_default (AuditLog.timestamp r) now)
            (AuditLog.action r) (AuditLog.user_id r) (AuditLog.details r)].

Definition insert_registered_model (tbl : list PolicyModel.t)
  (r : PolicyModel.t) : list PolicyModel.t :=
  tbl ++ [PolicyModel.mk
            (or_default (PolicyModel.id r) (next_id (map PolicyModel.id tbl)))
            (PolicyModel.name r) (PolicyModel.criticality r)
            (PolicyModel.type r) (PolicyModel.region r)].

Definition insert_row (now : Z) (d : Database) (r : row) : Database :=
  match r with
  | AuditRow a =>
      {| audit_logs := insert_audit_log now (audit_logs d) a;
         registered_models := registered_models d |}
  | ModelRow m =>
      {| audit_logs := audit_logs d;
         registered_models := insert_registered_model (registered_models d) m |}
  end.

(** Writing every staged row, in the order staged. *)
Definition flush (now : Z) (d : Database) (staged : list row) : Database :=
  fold_left (insert_row now) staged d.

(** ** Handlers as computations over the session

    A handler either returns a value or raises an exception (kept as the
    text [str(e)] gives), and leaves the session in some state. *)

Inductive result (A : Type) : Type :=
| Return (a : A)
| Raise (e : string).
Arguments Return {A} a.
Arguments Raise {A} e.

Definition M (A : Type) : Type := Session -> result A * Session.

Definition ret {A : Type} (a : A) : M A := fun s => (Return a, s).

Definition mbind {A B : Type} (c : M A) (k : A -> M B) : M B :=
  fun s => match c s with
           | (Return a, s') => k a s'
           | (Raise e, s') => (Raise e, s')
           end.

(** [try: body except Exception as e: handler(e)] *)
Definition try_except {A : Type} (body : M A) (handler : string -> M A)
  : M A :=
  fun s => match body s with
           | (Return a, s') => (Return a, s')
           | (Raise e, s') => handler e s'
           end.

Declare Scope py_scope.
Delimit Scope py_scope with py.
Notation "x <- c ;; k" := (mbind c (fun x => k))
  (at level 61, c at next level, right associativity) : py_scope.
Notation "c ;; k" := (mbind c (fun _ => k))
  (at level 61, right associativity) : py_scope.

(** [db.add(obj)] *)
Definition db_add (r : row) : M unit :=
  fun s => (Return tt, {| tables := tables s; new := new s ++ [r] |}).

(** [db.rollback()]: the staged rows are dropped. *)
Definition db_rollback : M unit :=
  fun s => (Return tt, {| tables := tables s; new := [] |}).

(** [SessionLocal()] and [db.close()] of [get_db]: a session starts with
    nothing staged, and closing it drops whatever is still staged. *)
Definition SessionLocal (d : Database) : Session :=
  {| tables := d; new := [] |}.

Definition db_close (s : Session) : Database := tables s.

(** [verify_token]: [not authorization] holds for a missing header and for
    an empty one. *)
Definition verify_token (authorization : option string) : string :=
  match authorization with
  | None => "anon-user"
  | Some "" => "anon-user"
  | Some _ => "authenticated-user"
  end.

(** [health_check] *)
Definition health_check : list (string * string) :=
  [("status", "healthy"); ("mode", "standalone (sqlite)")].

(** ** Routes

    What the framework does around a handler: the body is validated
    against the handler's schema class and a failure answers 422 without
    calling the handler; [get_db] opens a session and closes it on every
    exit; an exception leaving the handler answers 500. *)

Inductive http (A : Type) : Type :=
| Ok200 (body : A)
| UnprocessableEntity422
| InternalServerError500.
Arguments Ok200 {A} body.
Arguments UnprocessableEntity422 {A}.
Arguments InternalServerError500 {A}.

Definition with_db {A : Type} (handler : M A) (d : Database)
  : http A * Database :=
  match handler (SessionLocal d) with
  | (Return a, s) => (Ok200 a, db_close s)
  | (Raise _, s) => (InternalServerError500, db_close s)
  end.

(** [GET /] *)
Definition get_root (d : Database) : http (list (string * string)) * Database :=
  (Ok200 health_check, d).

Section Handlers.

Variable env : Env.

(** [db.commit()]: the staged rows are written together, or the write
    fails, nothing reaches the tables and the error is raised. *)
Definition db_commit : M unit :=
  fun s => match commit_error env with
           | Some e => (Raise e, s)
           | None =>
               (Return tt,
                {| tables := flush (utcnow env) (tables s) (new s);
                   new := [] |})
           end.

Definition is_dirty_region (model : ModelCreate.t) : bool :=
  PyStr.contains "east" (ModelCreate.region_id model)
  || PyStr.contains "central" (ModelCreate.region_id model).

(** The condition of the policy check, [True] meaning a violation. *)
Definition policy_violation (model : ModelCreate.t) : bool :=
  (ModelCreate.type model =? "Large")
  && (ModelCreate.criticality model =? "High")
  && is_dirty_region model.

Definition violation_error : string :=
  "Policy Violation: Cannot deploy High Criticality Large models to non-green regions.".

Definition registered_message : string :=
  "Model registered securely in Governance Node.".

Definition register_model (model : ModelCreate.t) (user : string)
  : M APIResponse.t :=
  (if policy_violation model then
     let log :=
       AuditLog.mk None None "VIOLATION_DETECTED" user
         [("reason", JStr "High Criticality Large Model in Dirty Region");
          ("model", JObj (ModelCreate.model_dump model))] in
     db_add (AuditRow log) ;;
     db_commit ;;
     ret (APIResponse.mk false None (Some violation_error))
   else
     try_except
       (let db_model :=
          PolicyModel.mk None (ModelCreate.name model)
            (ModelCreate.criticality model) (ModelCreate.type model)
            (ModelCreate.region_id model) in
        db_add (ModelRow db_model) ;;
        let log :=
          AuditLog.mk None None "REGISTER_MODEL" user
            [("model", JObj (ModelCreate.model_dump model))] in
        db_add (AuditRow log) ;;
        db_commit ;;
        ret (APIResponse.mk true
               (Some [("message", JStr registered_message)]) None))
       (fun e =>
          db_rollback ;;
          ret (APIResponse.mk false None (Some e))))%py.

Definition evaluate_policy (request : PolicyCheckRequest.t)
  : M PolicyCheckResponse.t :=
  if PyStr.contains "critical"
       (PyStr.lower (PolicyCheckRequest.model_id request))
  then ret (PolicyCheckResponse.mk false
              "Security Policy: Critical models cannot be auto-slept.")
  else ret (PolicyCheckResponse.mk true "Action permitted.").

(** [POST /api/v1/models/register] *)
Definition post_register (authorization : option string)
  (body : RawModelCreate) (d : Database) : http APIResponse.t * Database :=
  match ModelCreate_validate body with
  | None => (UnprocessableEntity422, d)
  | Some model =>
      with_db (register_model model (verify_token authorization)) d
  end.

(** [POST /api/v1/policy/evaluate] *)
Definition post_evaluate (body : RawPolicyCheckRequest) (d : Database)
  : http PolicyCheckResponse.t * Database :=
  match PolicyCheckRequest_validate body with
  | None => (UnprocessableEntity422, d)
  | Some request => with_db (evaluate_policy request) d
  end.

End Handlers.

(** ** The specification's vocabulary *)

(** The deny conjunction in the words of the specification: a Large model
    of High criticality whose region identifier contains "east" or
    "central" somewhere. *)
Definition DenyConjunction (model : ModelCreate.t) : Prop :=
  ModelCreate.type model = "Large" /\
  ModelCreate.criticality model = "High" /\
  (PyStr.Substring "east" (ModelCreate.region_id model) \/
   PyStr.Substring "central" (ModelCreate.region_id model)).

(** ** Sample requests

    The scenarios of the specification and a few neighbours, used to run
    the handlers. *)

Definition empty_db : Database :=
  {| audit_logs := []; registered_models := [] |}.

Definition env_ok : Env := {| commit_error := None; utcnow := 1700000000 |}.

Definition env_locked : Env :=
  {| commit_error := Some "database is locked"; utcnow := 1700000000 |}.

Definition body_of (n r t c : string) (e : option Z) : RawModelCreate :=
  {| raw_name := Some n; raw_region_id := Some r; raw_type := Some t;
     raw_criticality := Some c; raw_efficiency_score := e |}.

Definition body_m1 : RawModelCreate :=
  body_of "m1" "us-east-1" "Large" "High" None.

Definition body_m2 : RawModelCreate :=
  body_of "m2" "us-west-1" "Large" "High" None.

Definition body_urgent : RawModelCreate :=
  body_of "m3" "us-west-1" "Large" "Urgent" None.

Definition body_score_150 : RawModelCreate :=
  body_of "m4" "us-west-1" "Small" "Low" (Some 150%Z).

Definition model_m1 : ModelCreate.t :=
  ModelCreate.mk "m1" "us-east-1" "Large" "High" 0.

Definition model_m2 : ModelCreate.t :=
  ModelCreate.mk "m2" "us-west-1" "Large" "High" 0.

Definition check_body (action model_id : string) (context : option json)
  : RawPolicyCheckRequest :=
  {| raw_action := Some action; raw_model_id := Some model_id;
     raw_context := context |}.

(** [n] calls of [GET /] in a row: the responses and the store left
    behind. *)
Fixpoint get_root_times (n : nat) (d : Database)
  : list (http (list (string * string))) * Database :=
  match n with
  | O => ([], d)
  | S n' =>
      let (r, d1) := get_root d in
      let (rs, d2) := get_root_times n' d1 in
      (r :: rs, d2)
  end.

(** ** The application as a whole

    The three routes [app] declares, and the store after serving requests
    one after the other.  Each request comes with its own environment. *)

Inductive request : Type :=
| GET_root
| POST_models_register (authorization : option string) (body : RawModelCreate)
| POST_policy_evaluate (body : RawPolicyCheckRequest).

Definition serve (env : Env) (r : request) (d : Database) : Database :=
  match r with
  | GET_root => snd (get_root d)
  | POST_models_register authorization body =>
      snd (post_register env authorization body d)
  | POST_policy_evaluate body => snd (post_evaluate body d)
  end.

Fixpoint serve_all (rs : list (Env * request)) (d : Database) : Database :=
  match rs with
  | [] => d
  | (env, r) :: rs' => serve_all rs' (serve env r d)
  end.

Definition is_register (r : Env * request) : bool :=
  match snd r with
  | POST_models_register _ _ => true
  | _ => false
  end.

(** A response that is a 200 with [success = true]. *)
Definition succeeded (r : http APIResponse.t) : bool :=
  match r with
  | Ok200 a => APIResponse.success a
  | _ => false
  end.

(** A stored model row that the registration policy forbids. *)
Definition StoredViolation (r : PolicyModel.t) : Prop :=
  PolicyModel.type r = "Large" /\
  PolicyModel.criticality r = "High" /\
  (PyStr.Substring "east" (PolicyModel.region r) \/
   PyStr.Substring "central" (PolicyModel.region r)).

(** The number of audit rows carrying a given action tag. *)
Definition count_action (a : string) (tbl : list AuditLog.t) : nat :=
  List.length (filter (fun r => AuditLog.action r =? a) tbl).

(** What an audit row written by this application looks like. *)
Definition KnownAuditRow (r : AuditLog.t) : Prop :=
  (AuditLog.action r = "VIOLATION_DETECTED" \/
   AuditLog.action r = "REGISTER_MODEL") /\
  (AuditLog.user_id r = "anon-user" \/
   AuditLog.user_id r = "authenticated-user").

(** [d.get(k)] on a dict. *)
Fixpoint dict_get (k : string) (d : dict) : option json :=
  match d with
  | [] => None
  | (k', v) :: d' => if k' =? k then Some v else dict_get k d'
  end.

(** The same request body with another region identifier. *)
Definition with_region_id (r : string) (m : ModelCreate.t) : ModelCreate.t :=
  ModelCreate.mk (ModelCreate.name m) r (ModelCreate.type m)
    (ModelCreate.criticality m) (ModelCreate.efficiency_score m).



(** A day's traffic: a refused registration, two accepted ones (the second
    a repeat of the first), one lost to a locked database, a body with a
    field missing, a policy check and a probe. *)
Definition sample_requests : list (Env * request) :=
  [ (env_ok, POST_models_register None body_m1);
    (env_ok, POST_models_register (Some "Bearer abc") body_m2);
    (env_ok, POST_models_register None body_m2);
    (env_locked, POST_models_register None body_m2);
    (env_ok, POST_models_register None
               {| raw_name := None; raw_region_id := Some "us-west-1";
                  raw_type := Some "Small"; raw_criticality := Some "Low";
                  raw_efficiency_score := None |});
    (env_ok, POST_policy_evaluate (check_body "sleep" "critical-model-7" None));
    (env_ok, GET_root) ].

(** * Properties *)

(** ** Substring search *)

Module PyStrFacts.
Import PyStr.

Lemma startswith_app (p s : string) :
  startswith p s = true <-> exists post, s = p ++ post.
Proof.
  revert s; induction p as [|a p IH]; intros s; simpl.
  - split; [intros _; now exists s | reflexivity].
  - destruct s as [|b s]; simpl.
    + split; [discriminate | intros [post H]; discriminate].
    + rewrite andb_true_iff, IH. split.
      * intros [Hab [post ->]]. apply Ascii.eqb_eq in Hab. subst b.
        now exists post.
      * intros [post H]. injection H as -> ->. split.
        -- apply Ascii.eqb_refl.
        -- now exists post.
Qed.

Lemma contains_Substring (sub s : string) :
  contains sub s = true <-> Substring sub s.
Proof.
  unfold Substring. induction s as [|c s IH].
  - cbn [contains]. rewrite orb_false_r, startswith_app. split.
    + intros [post H]. now exists "", post.
    + intros [pre [post H]]. destruct pre; simpl in H.
      * now exists post.
      * discriminate.
  - cbn [contains]. rewrite orb_true_iff, startswith_app, IH. split.
    + intros [[post H] | [pre [post H]]].
      * now exists "", post.
      * exists (String c pre), post. simpl. now f_equal.
    + intros [pre [post H]]. destruct pre as [|d pre]; simpl in H.
      * left. now exists post.
      * right. injection H as _ ->. now exists pre, post.
Qed.

Lemma contains_false_iff (sub s : string) :
  contains sub s = false <-> ~ Substring sub s.
Proof.
  rewrite <- contains_Substring. destruct (contains sub s); split;
    congruence.
Qed.

End PyStrFacts.

(** ** Registration policy *)

Lemma is_dirty_region_spec (model : ModelCreate.t) :
  is_dirty_region model = true <->
  PyStr.Substring "east" (ModelCreate.region_id model) \/
  PyStr.Substring "central" (ModelCreate.region_id model).
Proof.
  unfold is_dirty_region.
  now rewrite orb_true_iff, !PyStrFacts.contains_Substring.
Qed.

Lemma policy_violation_spec (model : ModelCreate.t) :
  policy_violation model = true <-> DenyConjunction model.
Proof.
  unfold policy_violation, DenyConjunction.
  rewrite !andb_true_iff, !String.eqb_eq, is_dirty_region_spec. tauto.
Qed.

Lemma policy_violation_false (model : ModelCreate.t) :
  policy_violation model = false <-> ~ DenyConjunction model.
Proof.
  rewrite <- policy_violation_spec.
  destruct (policy_violation model); split; congruence.
Qed.

(** What the handler does on each of its four paths. *)

Lemma register_model_violation_committed env model user s :
  policy_violation model = true -> commit_error env = None ->
  register_model env model user s =
  (Return (APIResponse.mk false None (Some violation_error)),
   {| tables :=
        flush (utcnow env) (tables s)
          (new s ++ [AuditRow
                       (AuditLog.mk None None "VIOLATION_DETECTED" user
                          [("reason",
                            JStr "High Criticality Large Model in Dirty Region");
                           ("model", JObj (ModelCreate.model_dump model))])]);
      new := [] |}).
Proof.
  intros Hv Hc. unfold register_model. rewrite Hv.
  unfold mbind, ret, db_add, db_commit. rewrite Hc. reflexivity.
Qed.

Lemma register_model_violation_commit_error env model user s e :
  policy_violation model = true -> commit_error env = Some e ->
  register_model env model user s =
  (Raise e,
   {| tables := tables s;
      new := new s ++ [AuditRow
                         (AuditLog.mk None None "VIOLATION_DETECTED" user
                            [("reason",
                              JStr "High Criticality Large Model in Dirty Region");
                             ("model", JObj (ModelCreate.model_dump model))])]
   |}).
Proof.
  intros Hv Hc. unfold register_model. rewrite Hv.
  unfold mbind, ret, db_add, db_commit. rewrite Hc. reflexivity.
Qed.

Lemma register_model_allowed_committed env model user s :
  policy_violation model = false -> commit_error env = None ->
  register_model env model user s =
  (Return (APIResponse.mk true
             (Some [("message", JStr registered_message)]) None),
   {| tables :=
        flush (utcnow env) (tables s)
          ((new s ++ [ModelRow
                        (PolicyModel.mk None (ModelCreate.name model)
                           (ModelCreate.criticality model)
                           (ModelCreate.type model)
                           (ModelCreate.region_id model))])
           ++ [AuditRow
                 (AuditLog.mk None None "REGISTER_MODEL" user
                    [("model", JObj (ModelCreate.model_dump model))])]);
      new := [] |}).
Proof.
  intros Hv Hc. unfold register_model. rewrite Hv.
  unfold try_except, mbind, ret, db_add, db_commit. rewrite Hc. reflexivity.
Qed.

Lemma register_model_allowed_commit_error env model user s e :
  policy_violation model = false -> commit_error env = Some e ->
  register_model env model user s =
  (Return (APIResponse.mk false None (Some e)),
   {| tables := tables s; new := [] |}).
Proof.
  intros Hv Hc. unfold register_model. rewrite Hv.
  unfold try_except, mbind, ret, db_add, db_commit, db_rollback.
  rewrite Hc. reflexivity.
Qed.

(** C2: the policy decision of a registration request denies if and only
    if the model type is "Large", the criticality is "High" and the region
    identifier contains "east" or "central" as a substring, compared
    case-sensitively; in every other case it allows.  The decision is also
    what the response shows: with a store that accepts the write, the
    handler answers [success = false] exactly on the deny conjunction. *)
Theorem C2_policy_decision (model : ModelCreate.t) :
  (policy_violation model = true <->
   ModelCreate.type model = "Large" /\
   ModelCreate.criticality model = "High" /\
   (PyStr.Substring "east" (ModelCreate.region_id model) \/
    PyStr.Substring "central" (ModelCreate.region_id model))) /\
  (policy_violation model = false <-> ~ DenyConjunction model) /\
  (forall env user s, commit_error env = None ->
     exists resp s',
       register_model env model user s = (Return resp, s') /\
       (APIResponse.success resp = false <-> DenyConjunction model)).
Proof.
  split; [exact (policy_violation_spec model) |].
  split; [exact (policy_violation_false model) |].
  intros env user s Hc.
  destruct (policy_violation model) eqn:Hv.
  - eexists _, _. split.
    + now apply register_model_violation_committed.
    + cbn. split; [intros _; now apply policy_violation_spec | reflexivity].
  - eexists _, _. split.
    + now apply register_model_allowed_committed.
    + cbn. split; [discriminate |].
      intros Hd. apply policy_violation_spec in Hd. congruence.
Qed.

Lemma C2_policy_decision_witness :
  exists resp s',
    register_model env_ok model_m1 "anon-user" (SessionLocal empty_db)
    = (Return resp, s') /\
    (APIResponse.success resp = false <-> DenyConjunction model_m1).
Proof.
  apply (proj2 (proj2 (C2_policy_decision model_m1))). reflexivity.
Defined.

(** The comparison is case-sensitive and looks anywhere in the string. *)
Example policy_violation_samples :
  policy_violation model_m1 = true /\
  policy_violation model_m2 = false /\
  policy_violation (ModelCreate.mk "a" "northeast" "Large" "High" 0) = true /\
  policy_violation (ModelCreate.mk "b" "eu-central-1" "Large" "High" 7) = true /\
  policy_violation (ModelCreate.mk "c" "us-EAST-1" "Large" "High" 0) = false /\
  policy_violation (ModelCreate.mk "d" "us-east-1" "large" "High" 0) = false /\
  policy_violation (ModelCreate.mk "e" "us-east-1" "Large" "Medium" 0) = false.
Proof. repeat split. Qed.

(** C3: a registration request that matches the deny conjunction is
    answered [success = false] with the error "Policy Violation: Cannot
    deploy High Criticality Large models to non-green regions.", exactly
    one audit row with action VIOLATION_DETECTED is written, and no model
    row is written (the store accepting the write). *)
Theorem C3_violation_path env authorization body model d :
  ModelCreate_validate body = Some model ->
  DenyConjunction model ->
  commit_error env = None ->
  post_register env authorization body d =
  (Ok200 (APIResponse.mk false None
            (Some "Policy Violation: Cannot deploy High Criticality Large models to non-green regions.")),
   {| audit_logs :=
        audit_logs d ++
        [AuditLog.mk (Some (next_id (map AuditLog.id (audit_logs d))))
           (Some (utcnow env)) "VIOLATION_DETECTED"
           (verify_token authorization)
           [("reason", JStr "High Criticality Large Model in Dirty Region");
            ("model", JObj (ModelCreate.model_dump model))]];
      registered_models := registered_models d |}).
Proof.
  intros Hb Hd Hc. apply policy_violation_spec in Hd.
  unfold post_register, with_db. rewrite Hb.
  rewrite (register_model_violation_committed _ _ _ _ Hd Hc).
  reflexivity.
Qed.

Lemma C3_violation_path_witness :
  post_register env_ok None body_m1 empty_db =
  (Ok200 (APIResponse.mk false None
            (Some "Policy Violation: Cannot deploy High Criticality Large models to non-green regions.")),
   {| audit_logs :=
        [AuditLog.mk (Some 1%Z) (Some 1700000000%Z) "VIOLATION_DETECTED"
           "anon-user"
           [("reason", JStr "High Criticality Large Model in Dirty Region");
            ("model", JObj (ModelCreate.model_dump model_m1))]];
      registered_models := [] |}).
Proof.
  apply (C3_violation_path env_ok None body_m1 model_m1 empty_db).
  - reflexivity.
  - apply policy_violation_spec. reflexivity.
  - reflexivity.
Defined.

(** C4: a registration request that does not match the deny conjunction is
    answered [success = true]; exactly one model row, carrying the name,
    criticality, type and region of the request, and exactly one audit row
    with action REGISTER_MODEL are written, by one commit: when that commit
    fails neither row reaches the tables. *)
Theorem C4_registration_path env authorization body model d :
  ModelCreate_validate body = Some model ->
  ~ DenyConjunction model ->
  (commit_error env = None ->
   post_register env authorization body d =
   (Ok200 (APIResponse.mk true
             (Some [("message",
                     JStr "Model registered securely in Governance Node.")])
             None),
    {| audit_logs :=
         audit_logs d ++
         [AuditLog.mk (Some (next_id (map AuditLog.id (audit_logs d))))
            (Some (utcnow env)) "REGISTER_MODEL"
            (verify_token authorization)
            [("model", JObj (ModelCreate.model_dump model))]];
       registered_models :=
         registered_models d ++
         [PolicyModel.mk
            (Some (next_id (map PolicyModel.id (registered_models d))))
            (ModelCreate.name model) (ModelCreate.criticality model)
            (ModelCreate.type model) (ModelCreate.region_id model)] |})) /\
  (forall e, commit_error env = Some e ->
   snd (post_register env authorization body d) = d).
Proof.
  intros Hb Hd. apply policy_violation_false in Hd.
  unfold post_register, with_db. rewrite Hb. split.
  - intros Hc.
    rewrite (register_model_allowed_committed _ _ _ _ Hd Hc). reflexivity.
  - intros e Hc.
    rewrite (register_model_allowed_commit_error _ _ _ _ _ Hd Hc).
    reflexivity.
Qed.

Lemma C4_registration_path_witness :
  post_register env_ok None body_m2 empty_db =
  (Ok200 (APIResponse.mk true
            (Some [("message",
                    JStr "Model registered securely in Governance Node.")])
            None),
   {| audit_logs :=
        [AuditLog.mk (Some 1%Z) (Some 1700000000%Z) "REGISTER_MODEL"
           "anon-user" [("model", JObj (ModelCreate.model_dump model_m2))]];
      registered_models :=
        [PolicyModel.mk (Some 1%Z) "m2" "High" "Large" "us-west-1"] |}).
Proof.
  apply (proj1 (C4_registration_path env_ok None body_m2 model_m2 empty_db
                  eq_refl
                  (proj1 (policy_violation_false model_m2) eq_refl))).
  reflexivity.
Defined.

(** ** Policy evaluation *)

Lemma evaluate_policy_session (request : PolicyCheckRequest.t) (s : Session) :
  snd (evaluate_policy request s) = s.
Proof.
  unfold evaluate_policy.
  now destruct (PyStr.contains "critical"
                  (PyStr.lower (PolicyCheckRequest.model_id request))).
Qed.

(** C5: a policy-evaluate request is answered [allowed = false], with the
    reason "Security Policy: Critical models cannot be auto-slept.", if and
    only if the lowercased model_id contains "critical"; otherwise it is
    answered [allowed = true] with the reason "Action permitted."; two
    requests with the same model_id get the same answer whatever their
    action and context. *)
Theorem C5_evaluate_policy (action model_id : string)
  (context : option json) (d : Database) :
  (exists resp,
     post_evaluate (check_body action model_id context) d = (Ok200 resp, d) /\
     (PolicyCheckResponse.allowed resp = false <->
      PyStr.Substring "critical" (PyStr.lower model_id)) /\
     (PyStr.Substring "critical" (PyStr.lower model_id) ->
      resp = PolicyCheckResponse.mk false
               "Security Policy: Critical models cannot be auto-slept.") /\
     (~ PyStr.Substring "critical" (PyStr.lower model_id) ->
      resp = PolicyCheckResponse.mk true "Action permitted.")) /\
  (forall action' context' d',
     fst (post_evaluate (check_body action' model_id context') d') =
     fst (post_evaluate (check_body action model_id context) d)).
Proof.
  split.
  - unfold post_evaluate, with_db, evaluate_policy. cbn.
    destruct (PyStr.contains "critical" (PyStr.lower model_id)) eqn:Hc.
    + apply PyStrFacts.contains_Substring in Hc.
      eexists. split; [reflexivity |]. cbn. repeat split; tauto.
    + apply PyStrFacts.contains_false_iff in Hc.
      eexists. split; [reflexivity |]. cbn.
      repeat split; try tauto; discriminate.
  - intros action' context' d'.
    unfold post_evaluate, with_db, evaluate_policy. cbn.
    now destruct (PyStr.contains "critical" (PyStr.lower model_id)).
Qed.

Lemma C5_evaluate_policy_witness :
  exists resp,
    post_evaluate (check_body "sleep" "critical-model-7" None) empty_db
    = (Ok200 resp, empty_db) /\
    (PolicyCheckResponse.allowed resp = false <->
     PyStr.Substring "critical" (PyStr.lower "critical-model-7")) /\
    (PyStr.Substring "critical" (PyStr.lower "critical-model-7") ->
     resp = PolicyCheckResponse.mk false
              "Security Policy: Critical models cannot be auto-slept.") /\
    (~ PyStr.Substring "critical" (PyStr.lower "critical-model-7") ->
     resp = PolicyCheckResponse.mk true "Action permitted.").
Proof.
  exact (proj1 (C5_evaluate_policy "sleep" "critical-model-7" None empty_db)).
Defined.

Example evaluate_policy_samples :
  fst (post_evaluate (check_body "sleep" "critical-model-7" None) empty_db)
  = Ok200 (PolicyCheckResponse.mk false
             "Security Policy: Critical models cannot be auto-slept.") /\
  fst (post_evaluate (check_body "wake" "My-CRITICAL-db" (Some JNull)) empty_db)
  = Ok200 (PolicyCheckResponse.mk false
             "Security Policy: Critical models cannot be auto-slept.") /\
  fst (post_evaluate (check_body "sleep" "batch-model-7" None) empty_db)
  = Ok200 (PolicyCheckResponse.mk true "Action permitted.").
Proof. repeat split. Qed.

(** C9: a policy-evaluate request persists nothing: the handler stages and
    commits no row, so no audit row and no model row is written and the
    store after the request is the store before it. *)
Theorem C9_evaluate_no_persistence (body : RawPolicyCheckRequest)
  (d : Database) :
  snd (post_evaluate body d) = d /\
  (forall request s, snd (evaluate_policy request s) = s).
Proof.
  split; [| exact evaluate_policy_session].
  unfold post_evaluate.
  destruct (PolicyCheckRequest_validate body) as [request|]; [| reflexivity].
  unfold with_db.
  pose proof (evaluate_policy_session request (SessionLocal d)) as H.
  destruct (evaluate_policy request (SessionLocal d)) as [[resp|e] s];
    cbn in H |- *; now subst s.
Qed.

(** ** Liveness probe *)

(** C7 as the specification words it does not hold: the payload of [GET /]
    has mode "standalone (sqlite)", not "standalone". *)
Lemma C7_payload_counterexample :
  fst (get_root empty_db)
  <> Ok200 [("status", "healthy"); ("mode", "standalone")].
Proof. cbn. discriminate. Qed.

(** C7 (amended): every call of [GET /] returns the payload
    {status: "healthy", mode: "standalone (sqlite)"}; repeated calls never
    change the store and always return that same payload. *)
Theorem C7_health_check (d : Database) (n : nat) :
  get_root d =
  (Ok200 [("status", "healthy"); ("mode", "standalone (sqlite)")], d) /\
  get_root_times n d =
  (repeat (Ok200 [("status", "healthy"); ("mode", "standalone (sqlite)")]) n,
   d).
Proof.
  split; [reflexivity |].
  induction n as [|n IH]; [reflexivity |].
  cbn [get_root_times repeat]. unfold get_root at 1. now rewrite IH.
Qed.

(** ** Identity resolution *)

Lemma verify_token_nonempty (s : string) :
  s <> "" -> verify_token (Some s) = "authenticated-user".
Proof. destruct s; [congruence | reflexivity]. Qed.

(** The audit rows a registration request adds to the table all carry the
    identity passed to the handler. *)
Lemma post_register_audit_rows env authorization body d :
  exists written,
    audit_logs (snd (post_register env authorization body d))
    = (audit_logs d ++ written)%list /\
    Forall (fun r => AuditLog.user_id r = verify_token authorization) written.
Proof.
  unfold post_register, with_db.
  destruct (ModelCreate_validate body) as [model|].
  2:{ exists []. cbn. now rewrite app_nil_r. }
  destruct (policy_violation model) eqn:Hv,
           (commit_error env) as [e|] eqn:Hc.
  - rewrite (register_model_violation_commit_error _ _ _ _ _ Hv Hc).
    exists []. cbn. now rewrite app_nil_r.
  - rewrite (register_model_violation_committed _ _ _ _ Hv Hc).
    eexists [_]. cbn. split; [reflexivity |]. now repeat constructor.
  - rewrite (register_model_allowed_commit_error _ _ _ _ _ Hv Hc).
    exists []. cbn. now rewrite app_nil_r.
  - rewrite (register_model_allowed_committed _ _ _ _ Hv Hc).
    eexists [_]. cbn. split; [reflexivity |]. now repeat constructor.
Qed.

(** C8: identity resolution returns "anon-user" when the Authorization
    header is absent and "authenticated-user" when it is present with any
    non-empty value; that identity is the user_id of every audit row
    written for the request. *)
Theorem C8_identity_resolution :
  verify_token None = "anon-user" /\
  (forall s, s <> "" -> verify_token (Some s) = "authenticated-user") /\
  (forall env authorization body d,
     exists written,
       audit_logs (snd (post_register env authorization body d))
       = (audit_logs d ++ written)%list /\
       Forall (fun r => AuditLog.user_id r = verify_token authorization)
         written).
Proof.
  split; [reflexivity |].
  split; [exact verify_token_nonempty |].
  exact post_register_audit_rows.
Qed.

Lemma C8_identity_resolution_witness :
  verify_token (Some "Bearer abc") = "authenticated-user".
Proof.
  apply (proj1 (proj2 C8_identity_resolution)). discriminate.
Defined.

Example audit_row_identity_samples :
  map AuditLog.user_id
    (audit_logs (snd (post_register env_ok (Some "Bearer abc") body_m1
                        empty_db)))
  = ["authenticated-user"] /\
  map AuditLog.user_id
    (audit_logs (snd (post_register env_ok None body_m2 empty_db)))
  = ["anon-user"].
Proof. split; reflexivity. Qed.

(** C10: a header that is present but empty resolves to "anon-user", the
    same identity as a missing header: the test is on falsiness. *)
Theorem C10_empty_header :
  verify_token (Some "") = "anon-user" /\
  verify_token (Some "") = verify_token None.
Proof. split; reflexivity. Qed.

(** ** Schema validation *)

(** The schema class main.py validates against accepts every criticality
    and every efficiency score. *)
Lemma ModelCreate_validate_total (n r t c : string) (e : option Z) :
  exists model,
    ModelCreate_validate (body_of n r t c e) = Some model /\
    ModelCreate.criticality model = c.
Proof. eexists. split; reflexivity. Qed.

(** The class of schemas.py accepts exactly the bodies within its
    constraints. *)
Lemma schemas_ModelCreate_validate_spec (n r t c : string) (e : Z) :
  schemas.ModelCreate_validate (body_of n r t c (Some e)) <> None <->
  (c = "Low" \/ c = "Medium" \/ c = "High") /\ (0 <= e <= 100)%Z.
Proof.
  unfold schemas.ModelCreate_validate, schemas.criticality_pattern,
    schemas.efficiency_score_range. cbn.
  destruct (((c =? "Low") || (c =? "Medium") || (c =? "High"))
            && ((0 <=? e)%Z && (e <=? 100)%Z)) eqn:H.
  - rewrite !andb_true_iff, !orb_true_iff, !String.eqb_eq,
      !Z.leb_le in H.
    split; [intros _; tauto | discriminate].
  - apply not_true_iff_false in H.
    rewrite !andb_true_iff, !orb_true_iff, !String.eqb_eq,
      !Z.leb_le in H.
    split; [congruence | tauto].
Qed.

(** C1 (the code departs from it): a registration body with criticality
    "Urgent", or with efficiency_score 150, passes the validation main.py
    applies; the handler runs and both rows are written.  The class of the
    same name in schemas.py rejects each of these bodies. *)
Theorem C1_unconstrained_schema :
  schemas.ModelCreate_validate body_urgent = None /\
  post_register env_ok None body_urgent empty_db =
  (Ok200 (APIResponse.mk true
            (Some [("message",
                    JStr "Model registered securely in Governance Node.")])
            None),
   {| audit_logs :=
        [AuditLog.mk (Some 1%Z) (Some 1700000000%Z) "REGISTER_MODEL"
           "anon-user"
           [("model",
             JObj [("name", JStr "m3"); ("region_id", JStr "us-west-1");
                   ("type", JStr "Large"); ("criticality", JStr "Urgent");
                   ("efficiency_score", JInt 0)])]];
      registered_models :=
        [PolicyModel.mk (Some 1%Z) "m3" "Urgent" "Large" "us-west-1"] |}) /\
  schemas.ModelCreate_validate body_score_150 = None /\
  post_register env_ok None body_score_150 empty_db =
  (Ok200 (APIResponse.mk true
            (Some [("message",
                    JStr "Model registered securely in Governance Node.")])
            None),
   {| audit_logs :=
        [AuditLog.mk (Some 1%Z) (Some 1700000000%Z) "REGISTER_MODEL"
           "anon-user"
           [("model",
             JObj [("name", JStr "m4"); ("region_id", JStr "us-west-1");
                   ("type", JStr "Small"); ("criticality", JStr "Low");
                   ("efficiency_score", JInt 150)])]];
      registered_models :=
        [PolicyModel.mk (Some 1%Z) "m4" "Low" "Small" "us-west-1"] |}).
Proof. repeat split. Qed.

(** ** Storage errors *)

(** C6 (the code departs from it): on the violation path a failing commit
    is not caught.  The exception leaves the handler with the audit row
    still staged and no rollback, and the request is answered 500 instead
    of a [success = false] body with the error text.  On the success path
    the same failure is caught, rolled back and reported. *)
Theorem C6_violation_commit_error_escapes :
  register_model env_locked model_m1 "anon-user" (SessionLocal empty_db) =
  (Raise "database is locked",
   {| tables := empty_db;
      new := [AuditRow
                (AuditLog.mk None None "VIOLATION_DETECTED" "anon-user"
                   [("reason",
                     JStr "High Criticality Large Model in Dirty Region");
                    ("model", JObj (ModelCreate.model_dump model_m1))])] |}) /\
  post_register env_locked None body_m1 empty_db =
  (InternalServerError500, empty_db) /\
  register_model env_locked model_m2 "anon-user" (SessionLocal empty_db) =
  (Return (APIResponse.mk false None (Some "database is locked")),
   {| tables := empty_db; new := [] |}) /\
  post_register env_locked None body_m2 empty_db =
  (Ok200 (APIResponse.mk false None (Some "database is locked")), empty_db).
Proof. repeat split. Qed.

(** On the success path a storage error is handled for every request. *)
Lemma storage_error_success_path env authorization body model d e :
  ModelCreate_validate body = Some model ->
  ~ DenyConjunction model ->
  commit_error env = Some e ->
  post_register env authorization body d =
  (Ok200 (APIResponse.mk false None (Some e)), d).
Proof.
  intros Hb Hd Hc. apply policy_violation_false in Hd.
  unfold post_register, with_db. rewrite Hb.
  now rewrite (register_model_allowed_commit_error _ _ _ _ _ Hd Hc).
Qed.

(** On the violation path it is not, for every request. *)
Lemma storage_error_violation_path env authorization body model d e :
  ModelCreate_validate body = Some model ->
  DenyConjunction model ->
  commit_error env = Some e ->
  post_register env authorization body d = (InternalServerError500, d).
Proof.
  intros Hb Hd Hc. apply policy_violation_spec in Hd.
  unfold post_register, with_db. rewrite Hb.
  now rewrite (register_model_violation_commit_error _ _ _ _ _ Hd Hc).
Qed.

(** * Further properties of the application *)

(** ** The outcomes of a registration request *)

(** The route unfolded: one of five outcomes, chosen by the validation,
    the policy check and the commit. *)
Lemma post_register_eq env authorization body d :
  post_register env authorization body d =
  match ModelCreate_validate body with
  | None => (UnprocessableEntity422, d)
  | Some model =>
      if policy_violation model then
        match commit_error env with
        | Some _ => (InternalServerError500, d)
        | None =>
            (Ok200 (APIResponse.mk false None (Some violation_error)),
             {| audit_logs :=
                  insert_audit_log (utcnow env) (audit_logs d)
                    (AuditLog.mk None None "VIOLATION_DETECTED"
                       (verify_token authorization)
                       [("reason",
                         JStr "High Criticality Large Model in Dirty Region");
                        ("model", JObj (ModelCreate.model_dump model))]);
                registered_models := registered_models d |})
        end
      else
        match commit_error env with
        | Some e => (Ok200 (APIResponse.mk false None (Some e)), d)
        | None =>
            (Ok200 (APIResponse.mk true
                      (Some [("message", JStr registered_message)]) None),
             {| audit_logs :=
                  insert_audit_log (utcnow env) (audit_logs d)
                    (AuditLog.mk None None "REGISTER_MODEL"
                       (verify_token authorization)
                       [("model", JObj (ModelCreate.model_dump model))]);
                registered_models :=
                  insert_registered_model (registered_models d)
                    (PolicyModel.mk None (ModelCreate.name model)
                       (ModelCreate.criticality model)
                       (ModelCreate.type model)
                       (ModelCreate.region_id model)) |})
        end
  end.
Proof.
  unfold post_register, with_db.
  destruct (ModelCreate_validate body) as [model|]; [| reflexivity].
  destruct (policy_violation model) eqn:Hv,
           (commit_error env) as [e|] eqn:Hc.
  - now rewrite (register_model_violation_commit_error _ _ _ _ _ Hv Hc).
  - now rewrite (register_model_violation_committed _ _ _ _ Hv Hc).
  - now rewrite (register_model_allowed_commit_error _ _ _ _ _ Hv Hc).
  - now rewrite (register_model_allowed_committed _ _ _ _ Hv Hc).
Qed.

Ltac register_cases env body :=
  rewrite post_register_eq;
  let model := fresh "model" in
  let Hval := fresh "Hval" in
  let Hpol := fresh "Hpol" in
  let Hcom := fresh "Hcom" in
  destruct (ModelCreate_validate body) as [model|] eqn:Hval;
  [ destruct (policy_violation model) eqn:Hpol;
    destruct (commit_error env) as [?e|] eqn:Hcom |];
  cbn [fst snd audit_logs registered_models succeeded APIResponse.success
       APIResponse.data APIResponse.error].

Lemma post_evaluate_store (body : RawPolicyCheckRequest) (d : Database) :
  snd (post_evaluate body d) = d.
Proof.
  unfold post_evaluate.
  destruct (PolicyCheckRequest_validate body) as [request|]; [| reflexivity].
  unfold with_db, evaluate_policy.
  now destruct (PyStr.contains "critical"
                  (PyStr.lower (PolicyCheckRequest.model_id request))).
Qed.

Lemma verify_token_range (authorization : option string) :
  verify_token authorization = "anon-user" \/
  verify_token authorization = "authenticated-user".
Proof. destruct authorization as [[|c s]|]; cbn; auto. Qed.

Lemma count_action_app (a : string) (l1 l2 : list AuditLog.t) :
  count_action a (l1 ++ l2) = (count_action a l1 + count_action a l2)%nat.
Proof. unfold count_action. now rewrite filter_app, length_app. Qed.

Lemma known_audit_row_built i ts a authorization det :
  a = "VIOLATION_DETECTED" \/ a = "REGISTER_MODEL" ->
  KnownAuditRow (AuditLog.mk i ts a (verify_token authorization) det).
Proof. intros Ha. split; [exact Ha | apply verify_token_range]. Qed.

(** What one request adds to the two tables. *)
Lemma serve_delta env r d :
  exists la lm,
    audit_logs (serve env r d) = (audit_logs d ++ la)%list /\
    registered_models (serve env r d) = (registered_models d ++ lm)%list /\
    (List.length la <= 1)%nat /\
    count_action "REGISTER_MODEL" la = List.length lm /\
    Forall KnownAuditRow la /\
    Forall (fun m => ~ StoredViolation m) lm.
Proof.
  assert (Hnone : exists la lm,
             audit_logs d = (audit_logs d ++ la)%list /\
             registered_models d = (registered_models d ++ lm)%list /\
             (List.length la <= 1)%nat /\
             count_action "REGISTER_MODEL" la = List.length lm /\
             Forall KnownAuditRow la /\
             Forall (fun m => ~ StoredViolation m) lm).
  { exists [], []. rewrite !app_nil_r. cbn. repeat split; auto. }
  destruct r as [|authorization body|body]; cbn [serve].
  - exact Hnone.
  - register_cases env body; try exact Hnone.
    + eexists [_], []. rewrite app_nil_r. unfold insert_audit_log.
      split; [reflexivity |]. cbn. repeat split; auto.
      constructor; [apply known_audit_row_built; auto | constructor].
    + eexists [_], [_]. unfold insert_audit_log, insert_registered_model.
      split; [reflexivity |]. split; [reflexivity |]. cbn.
      repeat split; auto.
      * constructor; [apply known_audit_row_built; auto | constructor].
      * constructor; [| constructor]. unfold StoredViolation. cbn.
        now apply policy_violation_false in Hpol.
  - rewrite post_evaluate_store. exact Hnone.
Qed.

(** ** Invariants of the store over any sequence of requests *)

(** The tables are append-only: whatever requests are served, the rows
    that were in the two tables are still there, unchanged and in the same
    order, followed by the rows added. *)
Theorem serve_all_append_only (rs : list (Env * request)) (d : Database) :
  exists la lm,
    audit_logs (serve_all rs d) = (audit_logs d ++ la)%list /\
    registered_models (serve_all rs d) = (registered_models d ++ lm)%list.
Proof.
  revert d. induction rs as [|[env r] rs IH]; intros d; cbn [serve_all].
  - exists [], []. now rewrite !app_nil_r.
  - destruct (IH (serve env r d)) as (la & lm & Ha & Hm).
    destruct (serve_delta env r d) as (la0 & lm0 & Ha0 & Hm0 & _).
    exists (la0 ++ la)%list, (lm0 ++ lm)%list.
    rewrite Ha, Hm, Ha0, Hm0, <- !app_assoc. auto.
Qed.

(** No request sequence puts a forbidden deployment into the registry: if
    no stored model is a Large, High-criticality model in an "east" or
    "central" region, none is afterwards. *)
Theorem serve_all_no_stored_violation (rs : list (Env * request))
  (d : Database) :
  Forall (fun m => ~ StoredViolation m) (registered_models d) ->
  Forall (fun m => ~ StoredViolation m) (registered_models (serve_all rs d)).
Proof.
  revert d. induction rs as [|[env r] rs IH]; intros d Hd; cbn [serve_all].
  - exact Hd.
  - apply IH.
    destruct (serve_delta env r d) as (la & lm & _ & Hm & _ & _ & _ & Hlm).
    rewrite Hm. apply Forall_app. auto.
Qed.

(** Every model row has its audit row: the number of REGISTER_MODEL audit
    rows equals the number of registered models, before and after any
    sequence of requests. *)
Theorem serve_all_register_audit_count (rs : list (Env * request))
  (d : Database) :
  count_action "REGISTER_MODEL" (audit_logs d)
  = List.length (registered_models d) ->
  count_action "REGISTER_MODEL" (audit_logs (serve_all rs d))
  = List.length (registered_models (serve_all rs d)).
Proof.
  revert d. induction rs as [|[env r] rs IH]; intros d Hd; cbn [serve_all].
  - exact Hd.
  - apply IH.
    destruct (serve_delta env r d) as (la & lm & Ha & Hm & _ & Hc & _).
    rewrite Ha, Hm, count_action_app, length_app. lia.
Qed.

(** Audit rows only ever carry one of the two action tags and one of the
    two identities. *)
Theorem serve_all_known_audit_rows (rs : list (Env * request))
  (d : Database) :
  Forall KnownAuditRow (audit_logs d) ->
  Forall KnownAuditRow (audit_logs (serve_all rs d)).
Proof.
  revert d. induction rs as [|[env r] rs IH]; intros d Hd; cbn [serve_all].
  - exact Hd.
  - apply IH.
    destruct (serve_delta env r d) as (la & lm & Ha & _ & _ & _ & Hla & _).
    rewrite Ha. apply Forall_app. auto.
Qed.

(** A request adds at most one audit row, and a model row only together
    with an audit row: after [n] requests the audit table has grown by at
    most [n] rows and the registry by no more than the audit table. *)
Theorem serve_all_growth (rs : list (Env * request)) (d : Database) :
  (List.length (audit_logs (serve_all rs d))
   <= List.length (audit_logs d) + List.length rs)%nat /\
  (List.length (registered_models (serve_all rs d))
   + List.length (audit_logs d)
   <= List.length (audit_logs (serve_all rs d))
      + List.length (registered_models d))%nat.
Proof.
  revert d. induction rs as [|[env r] rs IH]; intros d; cbn [serve_all].
  - cbn. lia.
  - destruct (IH (serve env r d)) as [H1 H2].
    destruct (serve_delta env r d) as (la & lm & Ha & Hm & Hl & Hc & _).
    assert (List.length lm <= List.length la)%nat.
    { rewrite <- Hc. unfold count_action. apply filter_length_le. }
    rewrite Ha in H1. rewrite Ha, Hm in H2.
    repeat rewrite length_app in H1. repeat rewrite length_app in H2.
    cbn [List.length]. lia.
Qed.

Lemma serve_all_no_stored_violation_witness :
  Forall (fun m => ~ StoredViolation m)
    (registered_models (serve_all sample_requests empty_db)).
Proof.
  apply (serve_all_no_stored_violation sample_requests empty_db).
  constructor.
Defined.

Lemma serve_all_register_audit_count_witness :
  count_action "REGISTER_MODEL"
    (audit_logs (serve_all sample_requests empty_db))
  = List.length (registered_models (serve_all sample_requests empty_db)).
Proof.
  apply (serve_all_register_audit_count sample_requests empty_db).
  reflexivity.
Defined.

Lemma serve_all_known_audit_rows_witness :
  Forall KnownAuditRow (audit_logs (serve_all sample_requests empty_db)).
Proof.
  apply (serve_all_known_audit_rows sample_requests empty_db).
  constructor.
Defined.

Example sample_requests_store :
  map AuditLog.action (audit_logs (serve_all sample_requests empty_db))
  = ["VIOLATION_DETECTED"; "REGISTER_MODEL"; "REGISTER_MODEL"] /\
  map PolicyModel.name (registered_models (serve_all sample_requests empty_db))
  = ["m2"; "m2"] /\
  map PolicyModel.id (registered_models (serve_all sample_requests empty_db))
  = [Some 1%Z; Some 2%Z].
Proof. repeat split. Qed.

(** ** Primary keys *)









(** ** One registration request: response and store together *)

(** The response tells what happened to the registry: a model row is
    written exactly when the answer is a 200 with [success = true], and
    then it is one row, holding the four fields of the validated body,
    together with one REGISTER_MODEL audit row; on every other outcome the
    registry is left as it was. *)
Theorem post_register_success_iff_stored env authorization body d :
  if succeeded (fst (post_register env authorization body d))
  then exists model m log,
      ModelCreate_validate body = Some model /\
      registered_models (snd (post_register env authorization body d))
      = (registered_models d ++ [m])%list /\
      audit_logs (snd (post_register env authorization body d))
      = (audit_logs d ++ [log])%list /\
      AuditLog.action log = "REGISTER_MODEL" /\
      PolicyModel.name m = ModelCreate.name model /\
      PolicyModel.criticality m = ModelCreate.criticality model /\
      PolicyModel.type m = ModelCreate.type model /\
      PolicyModel.region m = ModelCreate.region_id model
  else registered_models (snd (post_register env authorization body d))
       = registered_models d.
Proof.
  register_cases env body; try reflexivity.
  exists model. unfold insert_audit_log, insert_registered_model.
  eexists _, _. repeat split.
Qed.

(** The body of a 200 answer has one of two shapes: success with a data
    payload and no error, or failure with an error text and no data. *)
Theorem post_register_response_shape env authorization body d resp :
  fst (post_register env authorization body d) = Ok200 resp ->
  (APIResponse.success resp = true /\
   APIResponse.data resp <> None /\ APIResponse.error resp = None) \/
  (APIResponse.success resp = false /\
   APIResponse.data resp = None /\ APIResponse.error resp <> None).
Proof.
  register_cases env body; intros H; try discriminate;
    injection H as <-; cbn; [right | right | left];
    repeat split; discriminate.
Qed.

Lemma post_register_response_shape_witness :
  (APIResponse.success (APIResponse.mk false None (Some violation_error))
   = true /\
   APIResponse.data (APIResponse.mk false None (Some violation_error))
   <> None /\
   APIResponse.error (APIResponse.mk false None (Some violation_error))
   = None) \/
  (APIResponse.success (APIResponse.mk false None (Some violation_error))
   = false /\
   APIResponse.data (APIResponse.mk false None (Some violation_error))
   = None /\
   APIResponse.error (APIResponse.mk false None (Some violation_error))
   <> None).
Proof.
  apply (post_register_response_shape env_ok None body_m1 empty_db).
  reflexivity.
Defined.



(** The registration route answers 500 in one situation only: the body is
    valid, it falls under the deny conjunction, and the commit of the
    violation audit row fails. *)
Theorem post_register_500_iff env authorization body d :
  fst (post_register env authorization body d) = InternalServerError500 <->
  exists model e,
    ModelCreate_validate body = Some model /\
    DenyConjunction model /\
    commit_error env = Some e.
Proof.
  rewrite post_register_eq.
  destruct (ModelCreate_validate body) as [model|] eqn:Hval.
  2:{ cbn. split; [discriminate | intros (m & e & H & _); discriminate]. }
  destruct (policy_violation model) eqn:Hpol.
  - destruct (commit_error env) as [e|] eqn:Hcom; cbn.
    + split; [intros _ | reflexivity].
      exists model, e. split; [reflexivity |]. split; [| reflexivity].
      now apply policy_violation_spec.
    + split; [discriminate | intros (m & e & _ & _ & H); discriminate].
  - assert (Hno : ~ exists m e, Some model = Some m /\ DenyConjunction m /\
                                commit_error env = Some e).
    { intros (m & e & Hm & Hd & _). injection Hm as <-.
      apply policy_violation_spec in Hd. congruence. }
    destruct (commit_error env); cbn;
      (split; [discriminate | intros H; exfalso; apply Hno; exact H]).
Qed.

(** A failed commit never leaves anything behind: whatever the request
    and whichever path it takes, the store is unchanged. *)
Theorem serve_commit_error_store_unchanged env r d e :
  commit_error env = Some e -> serve env r d = d.
Proof.
  intros He. destruct r as [|authorization body|body]; cbn [serve].
  - reflexivity.
  - register_cases env body; congruence.
  - apply post_evaluate_store.
Qed.

Lemma serve_commit_error_store_unchanged_witness :
  serve env_locked (POST_models_register None body_m1) empty_db = empty_db.
Proof.
  apply (serve_commit_error_store_unchanged env_locked
           (POST_models_register None body_m1) empty_db
           "database is locked").
  reflexivity.
Defined.

(** Whatever has been registered before, a request that is accepted is
    written again: nothing checks for an existing row of that name.  Two
    accepted registrations of the same body leave two rows with equal
    name, criticality, type and region. *)
Theorem register_twice_two_rows env1 env2 a1 a2 body model d :
  ModelCreate_validate body = Some model ->
  ~ DenyConjunction model ->
  commit_error env1 = None ->
  commit_error env2 = None ->
  exists m1 m2,
    registered_models
      (serve env2 (POST_models_register a2 body)
         (serve env1 (POST_models_register a1 body) d))
    = (registered_models d ++ [m1; m2])%list /\
    PolicyModel.name m1 = ModelCreate.name model /\
    PolicyModel.name m2 = ModelCreate.name model /\
    PolicyModel.criticality m1 = PolicyModel.criticality m2 /\
    PolicyModel.type m1 = PolicyModel.type m2 /\
    PolicyModel.region m1 = PolicyModel.region m2.
Proof.
  intros Hb Hd H1 H2. apply policy_violation_false in Hd.
  cbn [serve]. rewrite !post_register_eq, Hb, Hd, H1, H2.
  cbn [snd registered_models]. unfold insert_registered_model.
  eexists _, _. split.
  - rewrite <- app_assoc. reflexivity.
  - repeat split.
Qed.

Lemma register_twice_two_rows_witness :
  exists m1 m2,
    registered_models
      (serve env_ok (POST_models_register None body_m2)
         (serve env_ok (POST_models_register None body_m2) empty_db))
    = ([] ++ [m1; m2])%list /\
    PolicyModel.name m1 = "m2" /\
    PolicyModel.name m2 = "m2" /\
    PolicyModel.criticality m1 = PolicyModel.criticality m2 /\
    PolicyModel.type m1 = PolicyModel.type m2 /\
    PolicyModel.region m1 = PolicyModel.region m2.
Proof.
  apply (register_twice_two_rows env_ok env_ok None None body_m2 model_m2
           empty_db eq_refl
           (proj1 (policy_violation_false model_m2) eq_refl)
           eq_refl eq_refl).
Defined.

(** ** Identity and the outcome of a request *)

(** The token is never inspected: any two non-empty values of the header
    give the same response and the same store. *)
Theorem post_register_token_blind env t1 t2 body d :
  t1 <> "" -> t2 <> "" ->
  post_register env (Some t1) body d = post_register env (Some t2) body d.
Proof.
  intros H1 H2. unfold post_register.
  now rewrite (verify_token_nonempty t1 H1), (verify_token_nonempty t2 H2).
Qed.

Lemma post_register_token_blind_witness :
  post_register env_ok (Some "Bearer abc") body_m2 empty_db
  = post_register env_ok (Some "not-a-token") body_m2 empty_db.
Proof.
  apply (post_register_token_blind env_ok "Bearer abc" "not-a-token"
           body_m2 empty_db); discriminate.
Defined.

(** The header decides nothing but the name in the audit trail: with or
    without it, the response, the registry and the number of audit rows
    are the same. *)
Theorem post_register_identity_irrelevant env a1 a2 body d :
  fst (post_register env a1 body d) = fst (post_register env a2 body d) /\
  registered_models (snd (post_register env a1 body d))
  = registered_models (snd (post_register env a2 body d)) /\
  map AuditLog.action (audit_logs (snd (post_register env a1 body d)))
  = map AuditLog.action (audit_logs (snd (post_register env a2 body d))).
Proof.
  rewrite !post_register_eq.
  destruct (ModelCreate_validate body) as [model|]; [| now repeat split].
  destruct (policy_violation model), (commit_error env);
    cbn [fst snd audit_logs registered_models]; repeat split;
    unfold insert_audit_log; now rewrite !map_app.
Qed.

(** ** Requests that do not write *)

(** Probes and policy checks can be dropped from any sequence of requests
    without changing the store the sequence leaves. *)
Theorem serve_all_only_registrations_matter (rs : list (Env * request))
  (d : Database) :
  serve_all rs d = serve_all (filter is_register rs) d.
Proof.
  revert d. induction rs as [|[env r] rs IH]; intros d; [reflexivity |].
  destruct r as [|authorization body|body];
    cbn [filter is_register snd serve_all serve].
  - apply IH.
  - apply IH.
  - rewrite post_evaluate_store. apply IH.
Qed.


(** ** The audit trail of a registration *)

(** The audit row of an accepted registration records what was stored:
    under the key "model" its details hold the name, criticality, type and
    region of the model row written with it. *)
Theorem registration_audit_details env authorization body d :
  succeeded (fst (post_register env authorization body d)) = true ->
  exists m log md,
    registered_models (snd (post_register env authorization body d))
    = (registered_models d ++ [m])%list /\
    audit_logs (snd (post_register env authorization body d))
    = (audit_logs d ++ [log])%list /\
    dict_get "model" (AuditLog.details log) = Some (JObj md) /\
    dict_get "name" md = Some (JStr (PolicyModel.name m)) /\
    dict_get "criticality" md = Some (JStr (PolicyModel.criticality m)) /\
    dict_get "type" md = Some (JStr (PolicyModel.type m)) /\
    dict_get "region_id" md = Some (JStr (PolicyModel.region m)).
Proof.
  register_cases env body; intros H; try discriminate.
  unfold insert_audit_log, insert_registered_model.
  eexists _, _, _. repeat split.
Qed.

Lemma registration_audit_details_witness :
  exists m log md,
    registered_models (snd (post_register env_ok None body_m2 empty_db))
    = ([] ++ [m])%list /\
    audit_logs (snd (post_register env_ok None body_m2 empty_db))
    = ([] ++ [log])%list /\
    dict_get "model" (AuditLog.details log) = Some (JObj md) /\
    dict_get "name" md = Some (JStr (PolicyModel.name m)) /\
    dict_get "criticality" md = Some (JStr (PolicyModel.criticality m)) /\
    dict_get "type" md = Some (JStr (PolicyModel.type m)) /\
    dict_get "region_id" md = Some (JStr (PolicyModel.region m)).
Proof.
  apply (registration_audit_details env_ok None body_m2 empty_db).
  reflexivity.
Defined.

(** ** The session a handler leaves *)

(** Whenever the registration handler returns a response, nothing is left
    staged in the session: every returning path ends in a commit or a
    rollback. *)
Theorem register_model_returns_clean env model user s resp s' :
  register_model env model user s = (Return resp, s') -> new s' = [].
Proof.
  destruct (policy_violation model) eqn:Hv,
           (commit_error env) as [e|] eqn:Hc.
  - rewrite (register_model_violation_commit_error _ _ _ _ _ Hv Hc).
    discriminate.
  - rewrite (register_model_violation_committed _ _ _ _ Hv Hc).
    intros H. now injection H as _ <-.
  - rewrite (register_model_allowed_commit_error _ _ _ _ _ Hv Hc).
    intros H. now injection H as _ <-.
  - rewrite (register_model_allowed_committed _ _ _ _ Hv Hc).
    intros H. now injection H as _ <-.
Qed.

Lemma register_model_returns_clean_witness :
  new {| tables := empty_db; new := [] |} = [].
Proof.
  apply (register_model_returns_clean env_locked model_m2 "anon-user"
           {| tables := empty_db;
              new := [ModelRow (PolicyModel.mk None "x" "Low" "Small" "r")] |}
           (APIResponse.mk false None (Some "database is locked"))).
  reflexivity.
Defined.

(** ** Substring matching and case *)

Lemma string_append_assoc (a b c : string) : (a ++ b) ++ c = a ++ b ++ c.
Proof. induction a as [|x a IH]; cbn; [reflexivity | now rewrite IH]. Qed.



Lemma Substring_embed (sub s pre post : string) :
  PyStr.Substring sub s -> PyStr.Substring sub (pre ++ s ++ post).
Proof.
  intros (p & q & ->). exists (pre ++ p), (q ++ post).
  now rewrite !string_append_assoc.
Qed.





Lemma lower_append (a b : string) :
  PyStr.lower (a ++ b) = PyStr.lower a ++ PyStr.lower b.
Proof. induction a as [|c a IH]; cbn; [reflexivity | now rewrite IH]. Qed.


(** The check is on a substring, so it cannot be escaped by decorating the
    identifier: if a model_id is denied, so is every identifier that
    contains it. *)
Theorem post_evaluate_denied_superstring (action model_id pre post : string)
  (context : option json) (d : Database) :
  fst (post_evaluate (check_body action model_id context) d)
  = Ok200 (PolicyCheckResponse.mk false
             "Security Policy: Critical models cannot be auto-slept.") ->
  fst (post_evaluate (check_body action (pre ++ model_id ++ post) context) d)
  = Ok200 (PolicyCheckResponse.mk false
             "Security Policy: Critical models cannot be auto-slept.").
Proof.
  unfold post_evaluate, with_db, evaluate_policy. cbn.
  destruct (PyStr.contains "critical" (PyStr.lower model_id)) eqn:Hc;
    [intros _ | discriminate].
  apply PyStrFacts.contains_Substring in Hc.
  apply (Substring_embed _ _ (PyStr.lower pre) (PyStr.lower post)) in Hc.
  rewrite <- !lower_append in Hc.
  apply PyStrFacts.contains_Substring in Hc. now rewrite Hc.
Qed.

Lemma post_evaluate_denied_superstring_witness :
  fst (post_evaluate
         (check_body "sleep" ("prod-" ++ "Critical-db" ++ "-v2") None)
         empty_db)
  = Ok200 (PolicyCheckResponse.mk false
             "Security Policy: Critical models cannot be auto-slept.").
Proof.
  apply (post_evaluate_denied_superstring "sleep" "Critical-db" "prod-" "-v2"
           None empty_db).
  reflexivity.
Defined.



(** The region test is on a substring as well: a request that is a policy
    violation stays one when its region identifier is embedded in a longer
    one. *)
Theorem policy_violation_region_superstring (model : ModelCreate.t)
  (pre post : string) :
  policy_violation model = true ->
  policy_violation
    (with_region_id (pre ++ ModelCreate.region_id model ++ post) model)
  = true.
Proof.
  intros H. apply policy_violation_spec in H.
  destruct H as (Ht & Hc & Hr). apply policy_violation_spec.
  unfold DenyConjunction, with_region_id. cbn.
  split; [exact Ht |]. split; [exact Hc |].
  destruct Hr as [Hr | Hr]; [left | right]; now apply Substring_embed.
Qed.

Lemma policy_violation_region_superstring_witness :
  policy_violation
    (with_region_id ("aws:" ++ "us-east-1" ++ ":zone-b") model_m1) = true.
Proof.
  apply (policy_violation_region_superstring model_m1 "aws:" ":zone-b").
  reflexivity.
Defined.



(** ** The schema classes of schemas.py *)


(** The class of schemas.py is the stricter of the two: every body it
    accepts is accepted by the class main.py validates with, and with the
    same field values. *)
Theorem schemas_ModelCreate_stricter (b : RawModelCreate)
  (m : schemas.ModelCreate.t) :
  schemas.ModelCreate_validate b = Some m ->
  ModelCreate_validate b
  = Some (ModelCreate.mk (schemas.ModelCreate.name m)
            (schemas.ModelCreate.region_id m) (schemas.ModelCreate.type m)
            (schemas.ModelCreate.criticality m)
            (schemas.ModelCreate.efficiency_score m)).
Proof.
  unfold schemas.ModelCreate_validate, ModelCreate_validate.
  destruct (raw_name b), (raw_region_id b), (raw_type b),
    (raw_criticality b); try discriminate.
  destruct (_ && _); [| discriminate].
  intros H. now injection H as <-.
Qed.

Lemma schemas_ModelCreate_stricter_witness :
  ModelCreate_validate body_m1
  = Some (ModelCreate.mk "m1" "us-east-1" "Large" "High" 0).
Proof.
  apply (schemas_ModelCreate_stricter body_m1
           (schemas.ModelCreate.mk "m1" "us-east-1" "Large" "High" 0)).
  reflexivity.
Defined.
